(** * entity.resource.js: the entity resource of the Umbraco back office

    A shallow embedding of
    [src/Umbraco.Web.UI.Client/src/common/resources/entity.resource.js]
    and the properties of the requests its six methods construct.

    The file follows the source: JavaScript values and their string
    coercion first, then the injected collaborators ([$http] and
    [umbRequestHelper]) as records of functions, then the factory
    [entityResource] returning the record of the six methods. *)

From Stdlib Require Import String Ascii List ZArith Bool Lia DecimalString.
From ExtLib Require Import Structures.Monad Structures.MonadState.
From ExtLib Require Import Data.Monads.StateMonad.
Import ListNotations.
Import MonadNotation.

Local Open Scope list_scope.
Local Open Scope monad_scope.
Local Open Scope string_scope.

(** ** JavaScript values *)

Module Js.

(** The primitive values the methods are called with. A [number] is an
    integer-valued JavaScript number in the range that prints as plain
    decimal digits (every node id is one: the source documents ids as
    [Int]); a GUID id, a type name and a search query are [str]. An
    argument the caller leaves out is [undefined]. *)
Inductive value : Type :=
| undefined : value
| null : value
| boolean : bool -> value
| number : Z -> value
| str : string -> value.

(** ToString, the coercion applied by [+] when the other operand is a
    string. *)
Definition to_string (v : value) : string :=
  match v with
  | undefined => "undefined"
  | null => "null"
  | boolean true => "true"
  | boolean false => "false"
  | number n => NilZero.string_of_int (Z.to_int n)
  | str s => s
  end.

(** [s + v] with a string on the left. *)
Definition plus (s : string) (v : value) : string := s ++ to_string v.

(** [v + s] with a string on the right; the result is always a string. *)
Definition plus_string (v : value) (s : string) : value :=
  str (to_string v ++ s).

(** Array.prototype.join as used by Array.prototype.toString: undefined
    and null elements print as the empty string. *)
Definition element_to_string (v : value) : string :=
  match v with
  | undefined | null => ""
  | _ => to_string v
  end.

Definition array_to_string (a : list value) : string :=
  String.concat "," (map element_to_string a).

(** [s + a] with a string on the left and an array on the right. *)
Definition plus_array (s : string) (a : list value) : string :=
  s ++ array_to_string a.

(** An object literal: its own properties in the order they are written.
    The literals of the source never repeat a key. *)
Definition object : Type := list (string * value).

(** [k in o] *)
Definition has_own (k : string) (o : object) : bool :=
  existsb (fun kv => String.eqb (fst kv) k) o.

(** [o[k]]: reading a property that is not there gives undefined. *)
Definition prop (k : string) (o : object) : value :=
  match find (fun kv => String.eqb (fst kv) k) o with
  | Some kv => snd kv
  | None => undefined
  end.

Definition is_undefined (v : value) : bool :=
  match v with
  | undefined => true
  | _ => false
  end.

(** String.prototype.includes *)
Fixpoint includes (needle hay : string) : bool :=
  String.prefix needle hay ||
  match hay with
  | EmptyString => false
  | String _ hay' => includes needle hay'
  end.

End Js.

(** ** The collaborators *)

(** The third argument of [getApiUrl]: either a ready query string (a
    value) or an array of object literals. *)
Inductive QueryStrings : Type :=
| QValue (v : Js.value)
| QArray (items : list Js.object).

(** [$http]: only [get] is used. *)
Record HttpService (Url Call : Type) : Type := {
  http_get : Url -> Call
}.
Arguments http_get {Url Call}.

(** [umbRequestHelper]: only [getApiUrl] and [resourcePromise] are used. *)
Record UmbRequestHelper (Url Call Promise : Type) : Type := {
  getApiUrl : string -> string -> QueryStrings -> Url;
  resourcePromise : Call -> string -> Promise
}.
Arguments getApiUrl {Url Call Promise}.
Arguments resourcePromise {Url Call Promise}.

(** ** Local variables *)

(** The only variable any method declares is [query] in [getByIds]
    ([var query = ""], then [query += ...]). A call frame holds it; a
    [var] is hoisted, so in a fresh frame it is undefined until the
    assignment runs. *)
Record Frame : Type := { query : Js.value }.

Definition fresh_frame : Frame := {| query := Js.undefined |}.

Definition JsM : Type -> Type := state Frame.

(** [query = v] *)
Definition assign_query (v : Js.value) : JsM unit :=
  put {| query := v |}.

(** [query += s] *)
Definition append_query (s : string) : JsM unit :=
  f <- get ;;
  put {| query := Js.plus_string (query f) s |}.

Definition read_query : JsM Js.value :=
  f <- get ;; ret (query f).

(** [_.each(list, iteratee)] on an array: the iteratee runs once per
    element, first to last. *)
Fixpoint each {A : Type} (l : list A) (iteratee : A -> JsM unit) : JsM unit :=
  match l with
  | [] => ret tt
  | item :: rest => iteratee item ;; each rest iteratee
  end.

(** ** The factory *)

Record EntityResource (Promise : Type) : Type := {
  getById : Js.value -> Js.value -> JsM Promise;
  getByIds : list Js.value -> Js.value -> JsM Promise;
  getAll : Js.value -> JsM Promise;
  getAncestors : Js.value -> Js.value -> JsM Promise;
  getChildren : Js.value -> Js.value -> JsM Promise;
  search : Js.value -> Js.value -> JsM Promise
}.
Arguments getById {Promise}.
Arguments getByIds {Promise}.
Arguments getAll {Promise}.
Arguments getAncestors {Promise}.
Arguments getChildren {Promise}.
Arguments search {Promise}.

Section Factory.

Context {Url Call Promise : Type}.
Variable http : HttpService Url Call.
Variable umbRequestHelper : UmbRequestHelper Url Call Promise.

(** [function entityResource($q, $http, umbRequestHelper)]; [$q] is
    injected but never used. *)
Definition entityResource : EntityResource Promise := {|
  getById := fun id type =>
    ret (resourcePromise umbRequestHelper
           (http_get http
              (getApiUrl umbRequestHelper
                 "entityApiBaseUrl"
                 "GetById"
                 (QArray [[("id", id); ("type", type)]])))
           (Js.plus "Failed to retreive entity data for id " id));

  getByIds := fun ids type =>
    assign_query (Js.str "") ;;
    each ids (fun item =>
      append_query (Js.plus "ids=" item ++ "&")) ;;
    append_query (Js.plus "type=" type) ;;
    query <- read_query ;;
    ret (resourcePromise umbRequestHelper
           (http_get http
              (getApiUrl umbRequestHelper
                 "entityApiBaseUrl"
                 "GetByIds"
                 (QValue query)))
           (Js.plus_array "Failed to retreive entity data for ids " ids));

  getAll := fun type =>
    ret (resourcePromise umbRequestHelper
           (http_get http
              (getApiUrl umbRequestHelper
                 "entityApiBaseUrl"
                 "GetAll"
                 (QArray [[("type", type)]])))
           (Js.plus "Failed to retreive entity data for type " type));

  getAncestors := fun id type =>
    ret (resourcePromise umbRequestHelper
           (http_get http
              (getApiUrl umbRequestHelper
                 "entityApiBaseUrl"
                 "GetAncestors"
                 (QArray [[("id", id)]; [("type", type)]])))
           (Js.plus "Failed to retreive ancestor data for id " id));

  getChildren := fun id type =>
    ret (resourcePromise umbRequestHelper
           (http_get http
              (getApiUrl umbRequestHelper
                 "entityApiBaseUrl"
                 "GetChildren"
                 (QArray [[("id", id)]; [("type", type)]])))
           (Js.plus "Failed to retreive child data for id " id));

  search := fun query type =>
    ret (resourcePromise umbRequestHelper
           (http_get http
              (getApiUrl umbRequestHelper
                 "entityApiBaseUrl"
                 "SearchMedia"
                 (QArray [[("query", query)]; [("type", type)]])))
           (Js.plus "Failed to retreive entity data for query " query))
|}.

End Factory.

(** ** Calls *)

(** One call of one method with its arguments. An optional [type] the
    caller does not supply is [Js.undefined]. *)
Inductive Invocation : Type :=
| CallGetById (id type : Js.value)
| CallGetByIds (ids : list Js.value) (type : Js.value)
| CallGetAll (type : Js.value)
| CallGetAncestors (id type : Js.value)
| CallGetChildren (id type : Js.value)
| CallSearch (query type : Js.value).

(** The body of the called method, as a computation on a frame. *)
Definition invoke {Promise : Type} (r : EntityResource Promise)
    (c : Invocation) : JsM Promise :=
  match c with
  | CallGetById id type => getById r id type
  | CallGetByIds ids type => getByIds r ids type
  | CallGetAll type => getAll r type
  | CallGetAncestors id type => getAncestors r id type
  | CallGetChildren id type => getChildren r id type
  | CallSearch q type => search r q type
  end.

(** A JavaScript call: the body runs in a frame of its own, which is
    dropped when the method returns. *)
Definition call {Promise : Type} (r : EntityResource Promise)
    (c : Invocation) : Promise :=
  evalState (invoke r c) fresh_frame.

(** The same bodies run one after the other on ONE frame that is never
    reset: what a sequence of calls would compute if the methods' local
    variables were shared between calls. *)
Fixpoint invoke_all {Promise : Type} (r : EntityResource Promise)
    (cs : list Invocation) : JsM (list Promise) :=
  match cs with
  | [] => ret []
  | c :: rest =>
      p <- invoke r c ;;
      ps <- invoke_all r rest ;;
      ret (p :: ps)
  end.

(** ** Recording collaborators *)

(** What a method hands to [getApiUrl]. *)
Record ApiUrl : Type := {
  apiName : string;
  actionName : string;
  queryStrings : QueryStrings
}.

(** What a method hands to [resourcePromise]: the call on the URL and the
    failure message. *)
Record Request : Type := {
  url : ApiUrl;
  failureMessage : string
}.

Definition recording_http : HttpService ApiUrl ApiUrl :=
  {| http_get := fun u => u |}.

Definition recording_helper : UmbRequestHelper ApiUrl ApiUrl Request :=
  {| getApiUrl := Build_ApiUrl; resourcePromise := Build_Request |}.

Definition recorder : EntityResource Request :=
  entityResource recording_http recording_helper.

(** The request a call constructs. *)
Definition request_of (c : Invocation) : Request := call recorder c.

(** The request the body constructs when it starts in frame [f]. *)
Definition request_in (f : Frame) (c : Invocation) : Request :=
  evalState (invoke recorder c) f.

(** Hand a recorded request to real collaborators. *)
Definition replay {Url Call Promise : Type} (http : HttpService Url Call)
    (helper : UmbRequestHelper Url Call Promise) (r : Request) : Promise :=
  resourcePromise helper
    (http_get http
       (getApiUrl helper
          (apiName (url r)) (actionName (url r)) (queryStrings (url r))))
    (failureMessage r).

(** ** Reading request parameters *)

(** The entries of every object of the parameter array, in order. A ready
    query string has no entries. *)
Definition param_entries (qs : QueryStrings) : Js.object :=
  match qs with
  | QValue _ => []
  | QArray items => List.concat items
  end.

Definition param_names (qs : QueryStrings) : list string :=
  map fst (param_entries qs).

(** Some object of the array has the key. *)
Definition has_param (k : string) (qs : QueryStrings) : bool :=
  Js.has_own k (param_entries qs).

Definition param_value (k : string) (qs : QueryStrings) : Js.value :=
  Js.prop k (param_entries qs).

(** A parameter is left out of the request: no object carries its key. *)
Definition param_omitted (k : string) (qs : QueryStrings) : bool :=
  negb (has_param k qs).

(** A parameter is empty: reading it gives undefined. *)
Definition param_empty (k : string) (qs : QueryStrings) : bool :=
  Js.is_undefined (param_value k qs).

(** ** Segments of a query string *)

Definition ids_segment (item : Js.value) : string :=
  "ids=" ++ Js.to_string item.

Definition type_segment (type : Js.value) : string :=
  "type=" ++ Js.to_string type.

(** Cut a query string at every ampersand. *)
Fixpoint split_amp (s : string) : list string :=
  match s with
  | EmptyString => [EmptyString]
  | String a rest =>
      if Ascii.eqb a "&"%char then EmptyString :: split_amp rest
      else match split_amp rest with
           | [] => [String a EmptyString]
           | seg :: segs => String a seg :: segs
           end
  end.

(** No ampersand in the string. *)
Fixpoint amp_free (s : string) : bool :=
  match s with
  | EmptyString => true
  | String a rest => negb (Ascii.eqb a "&"%char) && amp_free rest
  end.

(** The string value of the query of [getByIds]. *)
Definition getByIds_query (ids : list Js.value) (type : Js.value) : string :=
  match queryStrings (url (request_of (CallGetByIds ids type))) with
  | QValue v => Js.to_string v
  | QArray _ => EmptyString
  end.

(** The context a caller supplies to each method. *)
Definition context_of (c : Invocation) : string :=
  match c with
  | CallGetById id _ => Js.to_string id
  | CallGetByIds ids _ => Js.array_to_string ids
  | CallGetAll type => Js.to_string type
  | CallGetAncestors id _ => Js.to_string id
  | CallGetChildren id _ => Js.to_string id
  | CallSearch q _ => Js.to_string q
  end.

(** ** The request executor *)

(** The outcome of the HTTP call. *)
Inductive HttpResult (Data Detail : Type) : Type :=
| HttpOk (body : Data)
| HttpFailed (detail : Detail).
Arguments HttpOk {Data Detail}.
Arguments HttpFailed {Data Detail}.

Inductive Promise (Data Detail : Type) : Type :=
| Resolved (data : Data)
| Rejected (errorMsg : string) (detail : Detail).
Arguments Resolved {Data Detail}.
Arguments Rejected {Data Detail}.

(** Modelled from the spec: [umbRequestHelper.resourcePromise], whose
    source file is not part of this development. The specification has it
    wrap the pending HTTP call, resolve with the parsed body, and reject
    with an error carrying the failure message plus the backend's
    diagnostic detail when the call fails. *)
Definition spec_resourcePromise {Data Detail : Type}
    (r : HttpResult Data Detail) (failureMessage : string)
    : Promise Data Detail :=
  match r with
  | HttpOk body => Resolved body
  | HttpFailed detail => Rejected failureMessage detail
  end.

(** The entity resource over a URL builder and a backend: [getApiUrl] is
    any function (the specification only says it is pure), [$http.get]
    answers as the backend does, [resourcePromise] is the one above. *)
Definition executor {Url Data Detail : Type}
    (mkUrl : string -> string -> QueryStrings -> Url)
    (backend : Url -> HttpResult Data Detail)
    : EntityResource (Promise Data Detail) :=
  entityResource
    {| http_get := backend |}
    {| getApiUrl := mkUrl; resourcePromise := spec_resourcePromise |}.

(** The query [getByIds] accumulates, as its loop builds it: every
    element leaves its segment and a trailing ampersand, then the type is
    appended. *)
Definition accumulated (ids : list Js.value) (type : Js.value) : string :=
  String.concat "" (map (fun item => Js.plus "ids=" item ++ "&") ids)
  ++ Js.plus "type=" type.

(** [s] ends with [suffix]. *)
Definition ends_with (suffix s : string) : Prop :=
  exists pre : string, s = pre ++ suffix.

(** ** Statements that are tested against the code *)

(** [getAll] without a type hands the URL builder no [type] parameter. *)
Definition getAll_omits_type_filter : Prop :=
  let r := request_of (CallGetAll Js.undefined) in
  actionName (url r) = "GetAll"
  /\ param_omitted "type" (queryStrings (url r)) = true.

(** [search("news")] without a type hands the URL builder the query and
    no [type] parameter. *)
Definition search_news_has_no_type_filter : Prop :=
  let r := request_of (CallSearch (Js.str "news") Js.undefined) in
  actionName (url r) = "SearchMedia"
  /\ param_value "query" (queryStrings (url r)) = Js.str "news"
  /\ param_omitted "type" (queryStrings (url r)) = true.

(** ** The six methods by name *)

Inductive Method : Type :=
| GetById | GetByIds | GetAll | GetAncestors | GetChildren | Search.

Definition method_of (c : Invocation) : Method :=
  match c with
  | CallGetById _ _ => GetById
  | CallGetByIds _ _ => GetByIds
  | CallGetAll _ => GetAll
  | CallGetAncestors _ _ => GetAncestors
  | CallGetChildren _ _ => GetChildren
  | CallSearch _ _ => Search
  end.

(** The method hands [getApiUrl] an array of object literals (every
    method but [getByIds], which hands it a string). *)
Definition passes_parameter_array (c : Invocation) : bool :=
  match c with
  | CallGetByIds _ _ => false
  | _ => true
  end.

(** What the loop of [getByIds] leaves in [query] for a sequence of ids. *)
Definition ids_part (ids : list Js.value) : string :=
  String.concat "" (map (fun item => Js.plus "ids=" item ++ "&") ids).

(** The characters the ids take once coerced to strings. *)
Definition rendered_length (ids : list Js.value) : nat :=
  list_sum (map (fun item => String.length (Js.to_string item)) ids).

(** The literal each method puts in front of the context in its failure
    message. *)
Definition failure_prefix (m : Method) : string :=
  match m with
  | GetById => "Failed to retreive entity data for id "
  | GetByIds => "Failed to retreive entity data for ids "
  | GetAll => "Failed to retreive entity data for type "
  | GetAncestors => "Failed to retreive ancestor data for id "
  | GetChildren => "Failed to retreive child data for id "
  | Search => "Failed to retreive entity data for query "
  end.

(** ** Examples from the documentation comments *)

Example to_string_values :
  map Js.to_string
    [Js.number 0; Js.number (-42); Js.number 1234; Js.str "Media";
     Js.undefined; Js.null; Js.boolean true]
  = ["0"; "-42"; "1234"; "Media"; "undefined"; "null"; "true"].
Proof. reflexivity. Qed.

Example array_to_string_values :
  Js.array_to_string [Js.number 1; Js.undefined; Js.number 3] = "1,,3".
Proof. reflexivity. Qed.

Example getById_media :
  request_of (CallGetById (Js.number 0) (Js.str "Media"))
  = {| url := {| apiName := "entityApiBaseUrl";
                 actionName := "GetById";
                 queryStrings :=
                   QArray [[("id", Js.number 0); ("type", Js.str "Media")]] |};
       failureMessage := "Failed to retreive entity data for id 0" |}.
Proof. reflexivity. Qed.

Example getByIds_templates :
  request_of (CallGetByIds [Js.number 1234; Js.number 2526; Js.number 28262]
                (Js.str "Template"))
  = {| url := {| apiName := "entityApiBaseUrl";
                 actionName := "GetByIds";
                 queryStrings :=
                   QValue (Js.str "ids=1234&ids=2526&ids=28262&type=Template") |};
       failureMessage :=
         "Failed to retreive entity data for ids 1234,2526,28262" |}.
Proof. reflexivity. Qed.

Example getAll_media :
  request_of (CallGetAll (Js.str "Media"))
  = {| url := {| apiName := "entityApiBaseUrl";
                 actionName := "GetAll";
                 queryStrings := QArray [[("type", Js.str "Media")]] |};
       failureMessage := "Failed to retreive entity data for type Media" |}.
Proof. reflexivity. Qed.

Example search_news :
  request_of (CallSearch (Js.str "news") Js.undefined)
  = {| url := {| apiName := "entityApiBaseUrl";
                 actionName := "SearchMedia";
                 queryStrings :=
                   QArray [[("query", Js.str "news")];
                           [("type", Js.undefined)]] |};
       failureMessage := "Failed to retreive entity data for query news" |}.
Proof. reflexivity. Qed.

(** * Supporting lemmas *)

(** ** Strings *)

Lemma string_app_assoc (a b c : string) : (a ++ b) ++ c = a ++ b ++ c.
Proof. induction a as [|x a IH]; simpl; [reflexivity | now rewrite IH]. Qed.

Lemma string_app_nil_r (a : string) : a ++ "" = a.
Proof. induction a as [|x a IH]; simpl; [reflexivity | now rewrite IH]. Qed.

Lemma concat_empty_cons (x : string) (xs : list string) :
  String.concat "" (x :: xs) = x ++ String.concat "" xs.
Proof.
  destruct xs as [|y ys]; simpl.
  - now rewrite string_app_nil_r.
  - reflexivity.
Qed.

Lemma prefix_app (s t : string) : String.prefix s (s ++ t) = true.
Proof.
  induction s as [|a s IH]; simpl.
  - now destruct t.
  - destruct (ascii_dec a a) as [_|ne]; [exact IH | now elim ne].
Qed.

Lemma includes_prefix (needle hay : string) :
  String.prefix needle hay = true -> Js.includes needle hay = true.
Proof. intros H. destruct hay; cbn [Js.includes]; rewrite H; reflexivity. Qed.

Lemma includes_app (pre s suf : string) :
  Js.includes s (pre ++ s ++ suf) = true.
Proof.
  induction pre as [|a pre IH].
  - cbn [append]. apply includes_prefix, prefix_app.
  - change (String a pre ++ s ++ suf) with (String a (pre ++ s ++ suf)).
    cbn [Js.includes]. rewrite IH. apply orb_true_r.
Qed.

Lemma includes_plus (pre : string) (v : Js.value) :
  Js.includes (Js.to_string v) (Js.plus pre v) = true.
Proof.
  unfold Js.plus. rewrite <- (string_app_nil_r (Js.to_string v)) at 2.
  apply includes_app.
Qed.

(** ** The loop of [getByIds] *)

Lemma each_append_query (g : Js.value -> string) (ids : list Js.value) :
  forall s : string,
    runState (each ids (fun item => append_query (g item)))
             {| query := Js.str s |}
    = (tt, {| query := Js.str (s ++ String.concat "" (map g ids)) |}).
Proof.
  induction ids as [|item rest IH]; intros s.
  - simpl. now rewrite string_app_nil_r.
  - cbn [each].
    change (runState (append_query (g item) ;;
                      each rest (fun i => append_query (g i)))
                     {| query := Js.str s |})
      with (runState (each rest (fun i => append_query (g i)))
                     {| query := Js.str (s ++ g item) |}).
    rewrite IH, string_app_assoc, map_cons, concat_empty_cons.
    reflexivity.
Qed.

Lemma runState_bind {A B : Type} (m : JsM A) (k : A -> JsM B) (f : Frame) :
  runState (x <- m ;; k x) f
  = let (a, f') := runState m f in runState (k a) f'.
Proof. reflexivity. Qed.

Lemma runState_assign_query (v : Js.value) (f : Frame) :
  runState (assign_query v) f = (tt, {| query := v |}).
Proof. reflexivity. Qed.

Lemma getByIds_run {Url Call Promise : Type} (http : HttpService Url Call)
    (helper : UmbRequestHelper Url Call Promise)
    (ids : list Js.value) (type : Js.value) (f : Frame) :
  runState (getByIds (entityResource http helper) ids type) f
  = (resourcePromise helper
       (http_get http
          (getApiUrl helper "entityApiBaseUrl" "GetByIds"
             (QValue (Js.str (accumulated ids type)))))
       (Js.plus_array "Failed to retreive entity data for ids " ids),
     {| query := Js.str (accumulated ids type) |}).
Proof.
  unfold accumulated. cbn [getByIds entityResource].
  rewrite runState_bind, runState_assign_query.
  rewrite runState_bind, each_append_query.
  reflexivity.
Qed.

Lemma invoke_run {Url Call Promise : Type} (http : HttpService Url Call)
    (helper : UmbRequestHelper Url Call Promise) (c : Invocation) (f : Frame) :
  runState (invoke (entityResource http helper) c) f
  = (replay http helper (request_of c),
     snd (runState (invoke recorder c) f)).
Proof.
  destruct c; try reflexivity.
  unfold request_of, call, recorder, evalState. cbn [invoke].
  rewrite !getByIds_run. reflexivity.
Qed.

Lemma request_of_getByIds (ids : list Js.value) (type : Js.value) :
  request_of (CallGetByIds ids type)
  = {| url := {| apiName := "entityApiBaseUrl";
                 actionName := "GetByIds";
                 queryStrings := QValue (Js.str (accumulated ids type)) |};
       failureMessage :=
         Js.plus_array "Failed to retreive entity data for ids " ids |}.
Proof.
  unfold request_of, call, recorder, evalState. cbn [invoke].
  rewrite getByIds_run. reflexivity.
Qed.

Lemma accumulated_join (ids : list Js.value) (type : Js.value) :
  accumulated ids type
  = String.concat "&" (map ids_segment ids ++ [type_segment type])%list.
Proof.
  unfold accumulated. induction ids as [|item rest IH].
  - reflexivity.
  - rewrite map_cons, concat_empty_cons, string_app_assoc, IH.
    cbn [map app]. 
    destruct (map ids_segment rest ++ [type_segment type])%list eqn:E.
    + now destruct (map ids_segment rest).
    + unfold Js.plus, ids_segment. cbn [String.concat].
      now rewrite !string_app_assoc.
Qed.

(** ** Cutting a query at its ampersands *)

Lemma amp_free_app (s t : string) :
  amp_free (s ++ t) = amp_free s && amp_free t.
Proof.
  induction s as [|a s IH]; simpl; [reflexivity|].
  rewrite IH. apply andb_assoc.
Qed.

Lemma split_amp_free (s : string) : amp_free s = true -> split_amp s = [s].
Proof.
  induction s as [|a s IH]; simpl; intros H; [reflexivity|].
  apply andb_true_iff in H as [Ha Hs].
  apply negb_true_iff in Ha. rewrite Ha, (IH Hs). reflexivity.
Qed.

Lemma split_amp_app (s t : string) :
  amp_free s = true -> split_amp (s ++ String "&" t) = s :: split_amp t.
Proof.
  induction s as [|a s IH]; simpl; intros H; [reflexivity|].
  apply andb_true_iff in H as [Ha Hs].
  apply negb_true_iff in Ha. rewrite Ha, (IH Hs). reflexivity.
Qed.

Lemma split_amp_join (segs : list string) :
  segs <> [] -> forallb amp_free segs = true ->
  split_amp (String.concat "&" segs) = segs.
Proof.
  induction segs as [|s rest IH]; intros Hne Hfree; [now elim Hne|].
  cbn [forallb] in Hfree. apply andb_true_iff in Hfree as [Hs Hrest].
  destruct rest as [|s' rest'].
  - apply split_amp_free, Hs.
  - change (String.concat "&" (s :: s' :: rest'))
      with (s ++ String "&" (String.concat "&" (s' :: rest'))).
    rewrite (split_amp_app _ _ Hs), IH; [reflexivity | discriminate | exact Hrest].
Qed.



Lemma getByIds_query_eq (ids : list Js.value) (type : Js.value) :
  getByIds_query ids type = accumulated ids type.
Proof. unfold getByIds_query. now rewrite request_of_getByIds. Qed.

Lemma amp_free_ids_segments (ids : list Js.value) :
  forallb (fun item => amp_free (Js.to_string item)) ids = true ->
  forallb amp_free (map ids_segment ids) = true.
Proof.
  induction ids as [|item rest IH]; cbn [forallb map]; intros H.
  - reflexivity.
  - apply andb_true_iff in H as [Hitem Hrest].
    unfold ids_segment at 1. rewrite amp_free_app, Hitem, (IH Hrest).
    reflexivity.
Qed.

(** With no ampersand inside any value, cutting the query of [getByIds]
    at its ampersands gives back one [ids] segment per element, in order,
    and the [type] segment last. *)
Lemma getByIds_query_split (ids : list Js.value) (type : Js.value) :
  forallb (fun item => amp_free (Js.to_string item)) ids = true ->
  amp_free (Js.to_string type) = true ->
  split_amp (getByIds_query ids type)
  = (map ids_segment ids ++ [type_segment type])%list.
Proof.
  intros Hids Htype.
  rewrite getByIds_query_eq, accumulated_join.
  apply split_amp_join.
  - now destruct (map ids_segment ids).
  - rewrite forallb_app. cbn [forallb].
    unfold type_segment at 1. rewrite amp_free_app, Htype.
    rewrite (amp_free_ids_segments _ Hids). reflexivity.
Qed.

Example getByIds_templates_split :
  split_amp (getByIds_query [Js.number 1234; Js.number 2526; Js.number 28262]
               (Js.str "Template"))
  = ["ids=1234"; "ids=2526"; "ids=28262"; "type=Template"].
Proof. reflexivity. Qed.

(** * Properties of the constructed requests *)

Lemma join_amp_snoc (segs : list string) (last : string) :
  segs <> [] ->
  String.concat "&" (segs ++ [last])%list
  = String.concat "&" segs ++ "&" ++ last.
Proof.
  induction segs as [|s rest IH]; intros Hne; [now elim Hne|].
  destruct rest as [|s' rest'].
  - reflexivity.
  - change (String.concat "&" ((s :: s' :: rest') ++ [last])%list)
      with (s ++ "&" ++ String.concat "&" ((s' :: rest') ++ [last])%list).
    rewrite IH by discriminate.
    change (String.concat "&" (s :: s' :: rest'))
      with (s ++ "&" ++ String.concat "&" (s' :: rest')).
    now rewrite !string_app_assoc.
Qed.

(** C1: for every non-empty sequence of ids and every type value, the
    query string [getByIds] constructs consists of one [ids=<value>]
    segment per element of the input, in the order of the input, joined by
    ampersands and followed by a single [type=<value>] segment. *)
Theorem getByIds_one_segment_per_id (ids : list Js.value) (type : Js.value) :
  ids <> [] ->
  queryStrings (url (request_of (CallGetByIds ids type)))
    = QValue (Js.str (getByIds_query ids type))
  /\ getByIds_query ids type
     = String.concat "&" (map ids_segment ids) ++ "&" ++ type_segment type
  /\ getByIds_query ids type
     = String.concat "&" (map ids_segment ids ++ [type_segment type])%list
  /\ length (map ids_segment ids) = length ids
  /\ (forall (i : nat) (item : Js.value),
        nth_error ids i = Some item ->
        nth_error (map ids_segment ids) i
        = Some ("ids=" ++ Js.to_string item)).
Proof.
  intros Hne. rewrite getByIds_query_eq, request_of_getByIds.
  rewrite accumulated_join. repeat split.
  - apply join_amp_snoc. now destruct ids.
  - apply length_map.
  - intros i item Hi. now rewrite nth_error_map, Hi.
Qed.

Lemma getByIds_one_segment_per_id_witness :
  [Js.number 1234; Js.number 2526] <> []
  /\ getByIds_query [Js.number 1234; Js.number 2526] (Js.str "Template")
     = String.concat "&"
         (map ids_segment [Js.number 1234; Js.number 2526])
       ++ "&" ++ type_segment (Js.str "Template").
Proof.
  split; [discriminate|].
  apply (getByIds_one_segment_per_id
           [Js.number 1234; Js.number 2526] (Js.str "Template")).
  discriminate.
Defined.

(** C2: for every id and every optional type, [getById] constructs a
    request with action name GetById whose parameters are exactly id and
    type, with the values given; when the type is not supplied the type
    parameter is empty (it reads as undefined). *)
Theorem getById_request (id type : Js.value) :
  actionName (url (request_of (CallGetById id type))) = "GetById"
  /\ queryStrings (url (request_of (CallGetById id type)))
     = QArray [[("id", id); ("type", type)]]
  /\ param_names (queryStrings (url (request_of (CallGetById id type))))
     = ["id"; "type"]
  /\ param_value "id" (queryStrings (url (request_of (CallGetById id type))))
     = id
  /\ param_value "type" (queryStrings (url (request_of (CallGetById id type))))
     = type
  /\ param_omitted "type"
       (queryStrings (url (request_of (CallGetById id Js.undefined))))
     || param_empty "type"
          (queryStrings (url (request_of (CallGetById id Js.undefined))))
     = true.
Proof. repeat split. Qed.

(** C3, as stated, fails: without a type, the parameters [getAll] hands
    to the URL builder still carry the [type] key. *)
Lemma getAll_undefined_keeps_type_key : ~ getAll_omits_type_filter.
Proof. intros [_ H]. discriminate H. Qed.

(** C3, amended: [getAll] constructs a request with action name GetAll
    whose only parameter is [type] with the value it was given; without a
    type the parameter is still passed, and its value is undefined. *)
Theorem getAll_request (type : Js.value) :
  actionName (url (request_of (CallGetAll type))) = "GetAll"
  /\ queryStrings (url (request_of (CallGetAll type)))
     = QArray [[("type", type)]]
  /\ has_param "type"
       (queryStrings (url (request_of (CallGetAll Js.undefined)))) = true
  /\ param_value "type"
       (queryStrings (url (request_of (CallGetAll Js.undefined))))
     = Js.undefined.
Proof. repeat split. Qed.

(** C4, as stated, fails: without a type, the parameters of
    [search("news")] still carry the [type] key. *)
Lemma search_news_keeps_type_key : ~ search_news_has_no_type_filter.
Proof. intros (_ & _ & H). discriminate H. Qed.

(** C4, amended: [search("news")] without a type constructs a request
    with action name SearchMedia whose parameters are [query] with the
    value "news" and, after it, [type] with the value undefined. *)
Theorem search_news_request :
  actionName (url (request_of (CallSearch (Js.str "news") Js.undefined)))
    = "SearchMedia"
  /\ queryStrings (url (request_of (CallSearch (Js.str "news") Js.undefined)))
     = QArray [[("query", Js.str "news")]; [("type", Js.undefined)]]
  /\ param_value "query"
       (queryStrings
          (url (request_of (CallSearch (Js.str "news") Js.undefined))))
     = Js.str "news"
  /\ has_param "type"
       (queryStrings
          (url (request_of (CallSearch (Js.str "news") Js.undefined))))
     = true
  /\ param_value "type"
       (queryStrings
          (url (request_of (CallSearch (Js.str "news") Js.undefined))))
     = Js.undefined.
Proof. repeat split. Qed.

Lemma failureMessage_includes_context (c : Invocation) :
  Js.includes (context_of c) (failureMessage (request_of c)) = true.
Proof.
  destruct c; try apply includes_plus.
  rewrite request_of_getByIds. cbn [failureMessage context_of].
  unfold Js.plus_array.
  rewrite <- (string_app_nil_r (Js.array_to_string ids)) at 2.
  apply includes_app.
Qed.

(** C5: for every method, when the underlying HTTP call fails the
    returned promise is rejected, and the message of the rejection
    contains the context the caller supplied: the id for [getById],
    [getAncestors] and [getChildren], the id list for [getByIds], the type
    for [getAll], the query for [search]. *)
Theorem transport_failure_names_context {Url Data Detail : Type}
    (mkUrl : string -> string -> QueryStrings -> Url)
    (backend : Url -> HttpResult Data Detail)
    (c : Invocation) (d : Detail) :
  backend (mkUrl (apiName (url (request_of c)))
                 (actionName (url (request_of c)))
                 (queryStrings (url (request_of c))))
    = HttpFailed d ->
  exists msg : string,
    call (executor mkUrl backend) c = Rejected msg d
    /\ msg = failureMessage (request_of c)
    /\ Js.includes (context_of c) msg = true.
Proof.
  intros Hfail. exists (failureMessage (request_of c)).
  split; [|split; [reflexivity | apply failureMessage_includes_context]].
  unfold call, executor, evalState. rewrite invoke_run.
  cbn [fst replay http_get getApiUrl resourcePromise].
  now rewrite Hfail.
Qed.

Lemma transport_failure_names_context_witness :
  (fun _ : ApiUrl => @HttpFailed string string "503")
    (Build_ApiUrl
       (apiName (url (request_of (CallGetById (Js.number 1234) Js.undefined))))
       (actionName (url (request_of (CallGetById (Js.number 1234) Js.undefined))))
       (queryStrings (url (request_of (CallGetById (Js.number 1234) Js.undefined)))))
    = HttpFailed "503"
  /\ exists msg : string,
       call (executor Build_ApiUrl
               (fun _ : ApiUrl => @HttpFailed string string "503"))
            (CallGetById (Js.number 1234) Js.undefined)
         = Rejected msg "503"
       /\ msg = failureMessage
                  (request_of (CallGetById (Js.number 1234) Js.undefined))
       /\ Js.includes "1234" msg = true.
Proof.
  split; [reflexivity|].
  apply (transport_failure_names_context Build_ApiUrl
           (fun _ : ApiUrl => @HttpFailed string string "503")
           (CallGetById (Js.number 1234) Js.undefined) "503").
  reflexivity.
Defined.

(** C6: for every id and optional type, [getAncestors] constructs a
    request with action name GetAncestors whose parameters are the given
    id and the given type, and its failure message includes the id. *)
Theorem getAncestors_request (id type : Js.value) :
  actionName (url (request_of (CallGetAncestors id type))) = "GetAncestors"
  /\ queryStrings (url (request_of (CallGetAncestors id type)))
     = QArray [[("id", id)]; [("type", type)]]
  /\ param_entries (queryStrings (url (request_of (CallGetAncestors id type))))
     = [("id", id); ("type", type)]
  /\ failureMessage (request_of (CallGetAncestors id type))
     = "Failed to retreive ancestor data for id " ++ Js.to_string id
  /\ Js.includes (Js.to_string id)
       (failureMessage (request_of (CallGetAncestors id type))) = true.
Proof.
  repeat split.
  apply (failureMessage_includes_context (CallGetAncestors id type)).
Qed.

Lemma request_in_fresh (c : Invocation) (f : Frame) :
  request_in f c = request_of c.
Proof.
  unfold request_in, evalState, recorder. rewrite invoke_run.
  cbn [fst]. now destruct (request_of c) as [[api action qs] msg].
Qed.

Lemma invoke_all_calls {Url Call Promise : Type} (http : HttpService Url Call)
    (helper : UmbRequestHelper Url Call Promise) (cs : list Invocation) :
  forall f : Frame,
    evalState (invoke_all (entityResource http helper) cs) f
    = map (call (entityResource http helper)) cs.
Proof.
  induction cs as [|c rest IH]; intros f; [reflexivity|].
  unfold evalState in *. cbn [invoke_all map].
  rewrite runState_bind, invoke_run, runState_bind.
  specialize (IH (snd (runState (invoke recorder c) f))).
  destruct (runState (invoke_all (entityResource http helper) rest)
              (snd (runState (invoke recorder c) f))) as [ps f'].
  cbn [fst] in IH. subst ps.
  unfold call at 2, evalState. rewrite invoke_run. reflexivity.
Qed.

(** C7: request construction is a function of the arguments alone. Two
    runs of the same method on the same arguments construct the same
    action name, parameters and failure message whatever an earlier call
    left in the frame of local variables; the promise a method returns is
    the collaborators applied to that request; and a sequence of calls run
    on one frame that is never reset returns what the calls return each
    in a fresh frame of its own, so nothing passes from one call to
    another. *)
Theorem invocations_share_no_state :
  (forall (c : Invocation) (f1 f2 : Frame),
      actionName (url (request_in f1 c)) = actionName (url (request_in f2 c))
      /\ queryStrings (url (request_in f1 c))
         = queryStrings (url (request_in f2 c))
      /\ failureMessage (request_in f1 c) = failureMessage (request_in f2 c))
  /\ (forall (Url Call Promise : Type) (http : HttpService Url Call)
        (helper : UmbRequestHelper Url Call Promise)
        (c : Invocation) (f : Frame),
        evalState (invoke (entityResource http helper) c) f
        = replay http helper (request_of c))
  /\ (forall (Url Call Promise : Type) (http : HttpService Url Call)
        (helper : UmbRequestHelper Url Call Promise)
        (cs : list Invocation) (f : Frame),
        evalState (invoke_all (entityResource http helper) cs) f
        = map (call (entityResource http helper)) cs).
Proof.
  split; [|split].
  - intros c f1 f2. now rewrite !request_in_fresh.
  - intros. unfold evalState. now rewrite invoke_run.
  - intros. apply invoke_all_calls.
Qed.

(** C8: with an empty sequence of ids, the query string [getByIds]
    constructs is just [type=] followed by the type value; it carries no
    [ids=] segment. *)
Theorem getByIds_empty (type : Js.value) :
  queryStrings (url (request_of (CallGetByIds [] type)))
    = QValue (Js.str ("type=" ++ Js.to_string type))
  /\ getByIds_query [] type = "type=" ++ Js.to_string type
  /\ getByIds_query [] type
     = String.concat "&" (map ids_segment [] ++ [type_segment type])%list
  /\ map ids_segment [] = []
  /\ String.prefix "ids=" (getByIds_query [] type) = false.
Proof. repeat split. Qed.

(** C9: [getByIds] never leaves the type segment out: the query string
    always ends with [type=] and the type coerced to a string, so without
    a type it ends with the literal text [type=undefined]. *)
Theorem getByIds_never_omits_type (ids : list Js.value) :
  (forall type : Js.value,
      ends_with ("type=" ++ Js.to_string type) (getByIds_query ids type))
  /\ ends_with "type=undefined" (getByIds_query ids Js.undefined)
  /\ queryStrings (url (request_of (CallGetByIds ids Js.undefined)))
     = QValue (Js.str (getByIds_query ids Js.undefined)).
Proof.
  split; [|split].
  - intros type. rewrite getByIds_query_eq. unfold accumulated.
    eexists. reflexivity.
  - rewrite getByIds_query_eq. unfold accumulated. eexists. reflexivity.
  - now rewrite getByIds_query_eq, request_of_getByIds.
Qed.

(** C10: every one of the six methods passes the literal
    [entityApiBaseUrl] as the first argument of the URL builder, and no
    other base URL key. *)
Theorem base_url_key_is_entityApiBaseUrl (c : Invocation) :
  apiName (url (request_of c)) = "entityApiBaseUrl"
  /\ (forall (Url Call Promise : Type) (http : HttpService Url Call)
        (helper : UmbRequestHelper Url Call Promise),
        call (entityResource http helper) c
        = resourcePromise helper
            (http_get http
               (getApiUrl helper "entityApiBaseUrl"
                  (actionName (url (request_of c)))
                  (queryStrings (url (request_of c)))))
            (failureMessage (request_of c))).
Proof.
  assert (Hkey : apiName (url (request_of c)) = "entityApiBaseUrl").
  { destruct c; try reflexivity. now rewrite request_of_getByIds. }
  split; [exact Hkey|].
  intros. unfold call, evalState. rewrite invoke_run.
  cbn [fst]. unfold replay. now rewrite Hkey.
Qed.

(** * Further properties of the six methods *)

Lemma string_app_inv_head (p x y : string) : p ++ x = p ++ y -> x = y.
Proof.
  induction p as [|a p IH]; simpl; intros H; [exact H|].
  injection H as H. exact (IH H).
Qed.

Lemma string_length_app (a b : string) :
  String.length (a ++ b) = String.length a + String.length b.
Proof. induction a as [|x a IH]; simpl; [reflexivity | now rewrite IH]. Qed.

Lemma ids_part_app (xs ys : list Js.value) :
  ids_part (xs ++ ys)%list = ids_part xs ++ ids_part ys.
Proof.
  unfold ids_part. induction xs as [|x xs IH].
  - reflexivity.
  - cbn [app]. rewrite !map_cons, !concat_empty_cons, IH.
    now rewrite !string_app_assoc.
Qed.

Lemma getByIds_query_parts (ids : list Js.value) (type : Js.value) :
  getByIds_query ids type = ids_part ids ++ type_segment type.
Proof. now rewrite getByIds_query_eq. Qed.

Lemma ids_segment_inj (xs ys : list Js.value) :
  map ids_segment xs = map ids_segment ys ->
  map Js.to_string xs = map Js.to_string ys.
Proof.
  revert ys. induction xs as [|x xs IH]; intros [|y ys] H;
    try discriminate H; [reflexivity|].
  cbn [map] in *. injection H as Hx Hrest.
  now rewrite Hx, (IH ys Hrest).
Qed.


(** X1: for every id and optional type, [getChildren] constructs a
    request with action name GetChildren whose parameters are the given id
    and the given type, the same parameter array [getAncestors] builds,
    and its failure message is the child-data message ending in the id. *)
Theorem getChildren_request (id type : Js.value) :
  actionName (url (request_of (CallGetChildren id type))) = "GetChildren"
  /\ queryStrings (url (request_of (CallGetChildren id type)))
     = QArray [[("id", id)]; [("type", type)]]
  /\ queryStrings (url (request_of (CallGetChildren id type)))
     = queryStrings (url (request_of (CallGetAncestors id type)))
  /\ failureMessage (request_of (CallGetChildren id type))
     = "Failed to retreive child data for id " ++ Js.to_string id
  /\ Js.includes (Js.to_string id)
       (failureMessage (request_of (CallGetChildren id type))) = true.
Proof.
  repeat split.
  apply (failureMessage_includes_context (CallGetChildren id type)).
Qed.

(** X2: the action name identifies the method: two calls whose requests
    carry the same action name are calls of the same method, so no two
    methods share an endpoint. *)
Theorem action_name_identifies_method (c1 c2 : Invocation) :
  actionName (url (request_of c1)) = actionName (url (request_of c2)) ->
  method_of c1 = method_of c2.
Proof.
  destruct c1, c2; rewrite ?request_of_getByIds; cbn; intros H;
    first [reflexivity | discriminate H].
Qed.

Lemma action_name_identifies_method_witness :
  actionName (url (request_of (CallGetChildren (Js.number 7) Js.undefined)))
  = actionName (url (request_of (CallGetChildren (Js.number 9) (Js.str "Media"))))
  /\ method_of (CallGetChildren (Js.number 7) Js.undefined)
     = method_of (CallGetChildren (Js.number 9) (Js.str "Media")).
Proof.
  split; [reflexivity|].
  apply (action_name_identifies_method
           (CallGetChildren (Js.number 7) Js.undefined)
           (CallGetChildren (Js.number 9) (Js.str "Media"))).
  reflexivity.
Defined.

Lemma failureMessage_shape (c : Invocation) :
  failureMessage (request_of c) = failure_prefix (method_of c) ++ context_of c.
Proof. destruct c; try reflexivity. now rewrite request_of_getByIds. Qed.

(** X3: the failure message identifies both the method and the context:
    two calls with the same failure message are calls of the same method
    with the same context string (id, id list, type or query). *)
Theorem failure_message_identifies_call (c1 c2 : Invocation) :
  failureMessage (request_of c1) = failureMessage (request_of c2) ->
  method_of c1 = method_of c2 /\ context_of c1 = context_of c2.
Proof.
  rewrite !failureMessage_shape.
  generalize (context_of c1) (context_of c2).
  destruct (method_of c1), (method_of c2); intros x y H;
    first [ split; [reflexivity | exact (string_app_inv_head _ _ _ H)]
          | cbn in H; discriminate H ].
Qed.

Lemma failure_message_identifies_call_witness :
  failureMessage (request_of (CallGetById (Js.number 12) Js.undefined))
  = failureMessage (request_of (CallGetById (Js.str "12") (Js.str "Media")))
  /\ method_of (CallGetById (Js.number 12) Js.undefined)
     = method_of (CallGetById (Js.str "12") (Js.str "Media"))
  /\ context_of (CallGetById (Js.number 12) Js.undefined)
     = context_of (CallGetById (Js.str "12") (Js.str "Media")).
Proof.
  split; [reflexivity|].
  apply (failure_message_identifies_call
           (CallGetById (Js.number 12) Js.undefined)
           (CallGetById (Js.str "12") (Js.str "Media"))).
  reflexivity.
Defined.

(** X4: the five methods that pass a parameter array pass their arguments
    as they are: the request determines the call, so two calls with the
    same request are the same method on the same argument values (a number
    and the string of its digits stay different). *)
Theorem request_determines_call (c1 c2 : Invocation) :
  passes_parameter_array c1 = true ->
  request_of c1 = request_of c2 ->
  c1 = c2.
Proof.
  intros Harr H.
  pose proof (f_equal (fun r => actionName (url r)) H) as Ha.
  pose proof (f_equal (fun r => queryStrings (url r)) H) as Hq.
  destruct c1; try discriminate Harr; destruct c2;
    rewrite ?request_of_getByIds in Ha, Hq; cbn in Ha, Hq;
    try discriminate Ha; injection Hq; intros; subst; reflexivity.
Qed.

Lemma request_determines_call_witness :
  passes_parameter_array (CallSearch (Js.str "news") Js.undefined) = true
  /\ request_of (CallSearch (Js.str "news") Js.undefined)
     = request_of (CallSearch (Js.str "news") Js.undefined)
  /\ CallSearch (Js.str "news") Js.undefined
     = CallSearch (Js.str "news") Js.undefined.
Proof.
  split; [reflexivity|]. split; [reflexivity|].
  apply (request_determines_call
           (CallSearch (Js.str "news") Js.undefined)
           (CallSearch (Js.str "news") Js.undefined));
    reflexivity.
Defined.

(** X5: [getByIds] sends only the string form of its arguments: two calls
    whose ids and types coerce to the same strings construct the same
    query, so the ids 1234 and "1234" cannot be told apart in it. *)
Theorem getByIds_query_of_renderings (ids ids' : list Js.value)
    (type type' : Js.value) :
  map Js.to_string ids = map Js.to_string ids' ->
  Js.to_string type = Js.to_string type' ->
  getByIds_query ids type = getByIds_query ids' type'.
Proof.
  intros Hids Htype. rewrite !getByIds_query_eq, !accumulated_join.
  unfold type_segment. rewrite Htype. f_equal. f_equal.
  assert (E : forall l, map ids_segment l
                        = map (fun s => "ids=" ++ s) (map Js.to_string l))
    by (intros l; now rewrite map_map).
  now rewrite !E, Hids.
Qed.

Lemma getByIds_query_of_renderings_witness :
  map Js.to_string [Js.number 1234; Js.number 2526]
  = map Js.to_string [Js.str "1234"; Js.str "2526"]
  /\ Js.to_string Js.undefined = Js.to_string (Js.str "undefined")
  /\ getByIds_query [Js.number 1234; Js.number 2526] Js.undefined
     = getByIds_query [Js.str "1234"; Js.str "2526"] (Js.str "undefined").
Proof.
  split; [reflexivity|]. split; [reflexivity|].
  apply (getByIds_query_of_renderings
           [Js.number 1234; Js.number 2526] [Js.str "1234"; Js.str "2526"]
           Js.undefined (Js.str "undefined")); reflexivity.
Defined.

(** X6: when no value contains an ampersand, the query of [getByIds]
    determines the string form of every id, in order, and of the type: two
    calls with the same query were given ids and types that coerce to the
    same strings. *)
Theorem getByIds_query_injective (ids ids' : list Js.value)
    (type type' : Js.value) :
  forallb (fun item => amp_free (Js.to_string item)) ids = true ->
  forallb (fun item => amp_free (Js.to_string item)) ids' = true ->
  amp_free (Js.to_string type) = true ->
  amp_free (Js.to_string type') = true ->
  getByIds_query ids type = getByIds_query ids' type' ->
  map Js.to_string ids = map Js.to_string ids'
  /\ Js.to_string type = Js.to_string type'.
Proof.
  intros Hi Hi' Ht Ht' H.
  apply (f_equal split_amp) in H.
  rewrite !getByIds_query_split in H by assumption.
  apply app_inj_tail in H as [Hids Htype].
  split.
  - apply ids_segment_inj, Hids.
  - exact (string_app_inv_head "type=" _ _ Htype).
Qed.

Lemma getByIds_query_injective_witness :
  forallb (fun item => amp_free (Js.to_string item)) [Js.number 7] = true
  /\ forallb (fun item => amp_free (Js.to_string item)) [Js.str "7"] = true
  /\ amp_free (Js.to_string (Js.str "Media")) = true
  /\ getByIds_query [Js.number 7] (Js.str "Media")
     = getByIds_query [Js.str "7"] (Js.str "Media")
  /\ map Js.to_string [Js.number 7] = map Js.to_string [Js.str "7"]
  /\ Js.to_string (Js.str "Media") = Js.to_string (Js.str "Media").
Proof.
  split; [reflexivity|]. split; [reflexivity|]. split; [reflexivity|].
  split; [reflexivity|].
  apply (getByIds_query_injective [Js.number 7] [Js.str "7"]
           (Js.str "Media") (Js.str "Media")); reflexivity.
Defined.

Lemma ids_part_one (item : Js.value) :
  ids_part [item] = ids_segment item ++ "&".
Proof. reflexivity. Qed.

Lemma ids_part_length (ids : list Js.value) :
  String.length (ids_part ids) = 5 * length ids + rendered_length ids.
Proof.
  induction ids as [|item rest IH]; [reflexivity|].
  change (item :: rest) with ([item] ++ rest)%list at 1.
  rewrite ids_part_app, string_length_app, IH, ids_part_one.
  change (rendered_length (item :: rest))
    with (String.length (Js.to_string item) + rendered_length rest).
  unfold ids_segment. rewrite !string_length_app.
  cbn [String.length length]. lia.
Qed.

(** X7: [getByIds] escapes nothing. An id whose text contains
    [&ids=] is sent exactly as two ids would be, wherever it stands in the
    sequence, and a type whose text contains an ampersand appends what
    follows it to the query as a further segment. *)
Theorem getByIds_escapes_nothing (before after : list Js.value)
    (a b : string) (type : Js.value) (t extra : string) :
  getByIds_query (before ++ [Js.str (a ++ "&ids=" ++ b)] ++ after)%list type
  = getByIds_query (before ++ [Js.str a; Js.str b] ++ after)%list type
  /\ getByIds_query before (Js.str (t ++ "&" ++ extra))
     = getByIds_query before (Js.str t) ++ "&" ++ extra.
Proof.
  split.
  - rewrite !getByIds_query_parts, !ids_part_app. f_equal. f_equal.
    change [Js.str a; Js.str b] with ([Js.str a] ++ [Js.str b])%list.
    rewrite ids_part_app, !ids_part_one. unfold ids_segment.
    cbn [Js.to_string]. now rewrite !string_app_assoc.
  - rewrite !getByIds_query_parts. unfold type_segment.
    cbn [Js.to_string]. now rewrite !string_app_assoc.
Qed.



(** X9: the query of [getByIds] is built left to right: for a sequence
    of ids in two parts, it is what the loop writes for the first part
    followed by the whole query of the second part, so the order of the
    parts is the order in the query and the type comes once, at the end. *)
Theorem getByIds_query_app (xs ys : list Js.value) (type : Js.value) :
  getByIds_query (xs ++ ys)%list type = ids_part xs ++ getByIds_query ys type
  /\ getByIds_query xs type = ids_part xs ++ getByIds_query [] type.
Proof.
  rewrite !getByIds_query_parts, ids_part_app. split.
  - apply string_app_assoc.
  - reflexivity.
Qed.

(** X10: every id of the input reaches the query: for each element of
    the sequence, the query of [getByIds] includes its [ids=<value>]
    segment with the ampersand that closes it. *)
Theorem getByIds_query_includes_each_id (ids : list Js.value)
    (type item : Js.value) :
  In item ids ->
  Js.includes (ids_segment item ++ "&") (getByIds_query ids type) = true.
Proof.
  intros Hin. apply in_split in Hin as (before & after & ->).
  change (item :: after) with ([item] ++ after)%list.
  rewrite getByIds_query_parts, !ids_part_app, ids_part_one.
  rewrite (string_app_assoc (ids_part before)).
  rewrite (string_app_assoc (ids_segment item ++ "&")).
  apply includes_app.
Qed.

Lemma getByIds_query_includes_each_id_witness :
  In (Js.number 2526) [Js.number 1234; Js.number 2526; Js.number 28262]
  /\ Js.includes (ids_segment (Js.number 2526) ++ "&")
       (getByIds_query [Js.number 1234; Js.number 2526; Js.number 28262]
          (Js.str "Template")) = true.
Proof.
  split; [right; left; reflexivity|].
  apply (getByIds_query_includes_each_id
           [Js.number 1234; Js.number 2526; Js.number 28262]
           (Js.str "Template") (Js.number 2526)).
  right; left; reflexivity.
Defined.

(** X11: the length of the query of [getByIds]: five characters of
    framing ([ids=] and [&]) per id, the characters of the ids themselves,
    five for [type=] and the characters of the type. It grows linearly
    with the number of ids; nothing bounds it. *)
Theorem getByIds_query_length (ids : list Js.value) (type : Js.value) :
  String.length (getByIds_query ids type)
  = 5 * length ids + rendered_length ids
    + 5 + String.length (Js.to_string type).
Proof.
  rewrite getByIds_query_parts, string_length_app, ids_part_length.
  unfold type_segment. rewrite string_length_app.
  cbn [String.length]. lia.
Qed.

(** X12: the two coercions of [getByIds] disagree on missing ids: an
    undefined and a null element are sent as different segments
    ([ids=undefined], [ids=null]) in the query, but both print as nothing
    in the failure message, which is therefore the same for the two
    calls. *)
Theorem getByIds_missing_ids (before after : list Js.value)
    (type : Js.value) :
  failureMessage
    (request_of (CallGetByIds (before ++ Js.undefined :: after)%list type))
  = failureMessage
      (request_of (CallGetByIds (before ++ Js.null :: after)%list type))
  /\ getByIds_query (before ++ Js.undefined :: after)%list type
     <> getByIds_query (before ++ Js.null :: after)%list type.
Proof.
  split.
  - rewrite !request_of_getByIds. cbn [failureMessage].
    unfold Js.plus_array, Js.array_to_string. now rewrite !map_app.
  - rewrite !getByIds_query_parts, !ids_part_app, !string_app_assoc.
    intros H. apply string_app_inv_head in H.
    change (Js.undefined :: after) with ([Js.undefined] ++ after)%list in H.
    change (Js.null :: after) with ([Js.null] ++ after)%list in H.
    rewrite !ids_part_app, !ids_part_one in H. discriminate H.
Qed.
